(** * broadlink/purifier.py: the LIFAair air-purifier codec

    A shallow embedding of [src/broadlink/purifier.py] and the properties
    of its wire format: the 26-byte command packet built by [_send], the
    fixed-offset decoding of the state payload, the fan-mode resolution and
    the three user operations [get_state], [set_fan_mode], [set_fan_speed].

    Python values are modelled as follows.
    - [int] is [Z]; [&] is [Z.land], [>>] is [Z.shiftr].
    - [bytes] and [bytearray] are [list Z]; a well-formed one holds values
      in [0, 256) only ([is_bytes]).  Reading an index that is out of range
      raises [IndexError]; storing one raises [IndexError], storing a value
      outside [0, 256) raises [ValueError].
    - [float] is the kernel's binary64 [float]; [/] is [PrimFloat.div].
    - a [dict] used as a table is a [gmap]; the two dictionaries returned
      by the decoders have fixed keys and are records.
    - an exception is a constructor of [exception]; a computation that may
      raise returns a [result].
    - the inherited [Device] methods [send_packet] and [decrypt] and the
      function [exceptions.check_error] are not part of this module: the
      operations are written as command trees over these three calls and
      interpreted against arbitrary implementations of them. *)

From Stdlib Require Import ZArith Floats Lia.
From stdpp Require Import gmap list.

Local Open Scope Z_scope.

(** ** Exceptions and results *)

Inductive exception : Type :=
  | IndexError                 (* built-in: sequence index out of range *)
  | ValueError                 (* built-in: byte must be in range(0, 256) *)
  | ProtocolError              (* named by the design notes; purifier.py never raises it *)
  | DeviceError (code : Z)     (* raised by exceptions.check_error *)
  | NetworkError (code : Z).   (* raised by the transport *)

Inductive result (A : Type) : Type :=
  | Ok (a : A)
  | Raise (e : exception).
Arguments Ok {A} a.
Arguments Raise {A} e.

#[global] Instance result_ret : MRet result := fun A a => Ok a.
#[global] Instance result_bind : MBind result := fun A B f r =>
  match r with
  | Ok a => f a
  | Raise e => Raise e
  end.

(** ** Byte sequences *)

Definition is_byte (b : Z) : bool := (0 <=? b) && (b <? 256).
Definition is_bytes (data : list Z) : bool := forallb is_byte data.

(** [data[i]] for a non-negative constant index. *)
Definition getitem (data : list Z) (i : nat) : result Z :=
  match data !! i with
  | Some b => Ok b
  | None => Raise IndexError
  end.

(** [packet[i] = v] on a bytearray. *)
Definition setitem (packet : list Z) (i : nat) (v : Z) : result (list Z) :=
  if decide (i < length packet)%nat
  then if is_byte v then Ok (<[i := v]> packet) else Raise ValueError
  else Raise IndexError.

(** [bytearray(n)]: n zero bytes. *)
Definition bytearray (n : nat) : list Z := replicate n 0.

(** [sum(iterable, start)] over a byte sequence. *)
Definition bytes_sum (l : list Z) (start : Z) : Z := foldl Z.add start l.

(** [l[lo:hi]] and [l[lo:]] for non-negative constant bounds; slicing
    never raises. *)
Definition slice (l : list Z) (lo hi : nat) : list Z := take (hi - lo) (drop lo l).
Definition slice_from (l : list Z) (lo : nat) : list Z := drop lo l.

(** [n / 10.0] for an int [n]: the int is converted to binary64 (exactly,
    for 0 <= n < 2^53) and divided. *)
Definition int_to_float (n : Z) : float := PrimFloat.of_uint63 (Uint63.of_Z n).
Definition truediv (n : Z) (d : float) : float := PrimFloat.div (int_to_float n) d.

(** ** FanMode *)

Inductive FanMode : Type :=
  | OFF | AUTO | NIGHT | TURBO | ANTI_ALLERGY | MANUAL | UNKNOWN.

(** The IntEnum values. *)
Definition FanMode_value (m : FanMode) : Z :=
  match m with
  | OFF => 0
  | AUTO => 1
  | NIGHT => 2
  | TURBO => 3
  | ANTI_ALLERGY => 4
  | MANUAL => 5
  | UNKNOWN => -1
  end.

Definition FanMode_of_value (v : Z) : option FanMode :=
  match v with
  | 0 => Some OFF
  | 1 => Some AUTO
  | 2 => Some NIGHT
  | 3 => Some TURBO
  | 4 => Some ANTI_ALLERGY
  | 5 => Some MANUAL
  | -1 => Some UNKNOWN
  | _ => None
  end.

#[global] Instance FanMode_eq_dec : EqDecision FanMode.
Proof. solve_decision. Defined.

#[global] Instance FanMode_countable : Countable FanMode.
Proof.
  apply (inj_countable FanMode_value FanMode_of_value).
  intros []; reflexivity.
Defined.

(** ** class lifaair *)

Definition FAN_STATE_TO_MODE : gmap Z (option FanMode) :=
  <[0x81 := Some OFF]>
  (<[0xA5 := Some AUTO]>
  (<[0x95 := Some NIGHT]>
  (<[0x8D := Some TURBO]>
  (<[0x85 := Some MANUAL]>
  (<[0x01 := None]> ∅))))).

(** [_Operation] and [_Action] are IntEnums; only their values matter. *)
Definition SET_STATE : Z := 1.
Definition GET_STATE : Z := 2.
Definition SET_FAN_SPEED : Z := 1.
Definition SET_FAN_MODE : Z := 2.

Definition FAN_MODE_TO_ACTION_ARG : gmap FanMode Z :=
  <[OFF := 1]>
  (<[AUTO := 2]>
  (<[NIGHT := 6]>
  (<[TURBO := 7]>
  (<[ANTI_ALLERGY := 11]> ∅)))).

(** *** Decoding *)

Record RawState : Type := mkRawState {
  raw_temperature : Z;
  raw_humidity : Z;
  raw_co2 : Z;
  raw_tvoc : Z;
  raw_pm10 : Z;
  raw_pm2_5 : Z;
  raw_pm1 : Z;
  raw_fan_state : Z;
  raw_fan_speed : Z;
  raw_fan_flags : Z;
}.

Record PurifierState : Type := mkPurifierState {
  temperature : option float;
  humidity : option Z;
  co2 : Z;
  tvoc : Z;
  pm10 : Z;
  pm2_5 : Z;
  pm1 : Z;
  fan_mode : option FanMode;
  fan_speed : Z;
}.

(** The dictionary display evaluates its entries in order, and each sum
    left to right. *)
Definition _decode_state_raw (data : list Z) : result RawState :=
  t0 ← getitem data 27; t1 ← getitem data 28;
  h ← getitem data 29;
  c0 ← getitem data 31; c1 ← getitem data 32;
  v0 ← getitem data 35; v1 ← getitem data 36;
  p0 ← getitem data 37; p1 ← getitem data 38;
  q0 ← getitem data 39; q1 ← getitem data 40;
  r0 ← getitem data 41; r1 ← getitem data 42;
  fstate ← getitem data 55;
  fspeed ← getitem data 56;
  fflags ← getitem data 57;
  mret {| raw_temperature := t0 + 256 * t1;
          raw_humidity := h;
          raw_co2 := c0 + 256 * c1;
          raw_tvoc := v0 + 256 * v1;
          raw_pm10 := p0 + 256 * p1;
          raw_pm2_5 := q0 + 256 * q1;
          raw_pm1 := r0 + 256 * r1;
          raw_fan_state := fstate;
          raw_fan_speed := fspeed;
          raw_fan_flags := fflags |}.

(** [None] is Python's [None]: the main unit is offline. *)
Definition _decode_fan_mode (fan_state fan_flags : Z) : option FanMode :=
  if Z.land fan_flags 0x40 =? 0 then Some ANTI_ALLERGY
  else default (Some UNKNOWN) (FAN_STATE_TO_MODE !! fan_state).

Definition _decode_state (data : list Z) : result PurifierState :=
  raw ← _decode_state_raw data;
  let fan_mode := _decode_fan_mode (raw_fan_state raw) (raw_fan_flags raw) in
  let isOffline := match fan_mode with None => true | Some _ => false end in
  mret {| temperature := if isOffline then None else Some (truediv (raw_temperature raw) 10);
          humidity := if isOffline then None else Some (raw_humidity raw);
          co2 := raw_co2 raw;
          tvoc := raw_tvoc raw * 10;
          pm10 := raw_pm10 raw;
          pm2_5 := raw_pm2_5 raw;
          pm1 := raw_pm1 raw;
          fan_mode := fan_mode;
          fan_speed := raw_fan_speed raw |}.

(** *** Sending a command *)

(** The construction phase of [_send]: the packet handed to
    [send_packet], statement by statement. *)
Definition _send_packet (operation action action_arg : Z) : result (list Z) :=
  let packet := bytearray 26 in
  packet ← setitem packet 0x02 0xA5;
  packet ← setitem packet 0x03 0xA5;
  packet ← setitem packet 0x04 0x5A;
  packet ← setitem packet 0x05 0x5A;
  packet ← setitem packet 0x08 (Z.land operation 0xFF);
  packet ← setitem packet 0x0A 0x0C;
  packet ← setitem packet 0x0E (Z.land action 0xFF);
  packet ← setitem packet 0x0F (Z.land action_arg 0xFF);
  let checksum := Z.land (bytes_sum packet 0xBEAF) 0xFFFF in
  packet ← setitem packet 0x06 (Z.land checksum 0xFF);
  packet ← setitem packet 0x07 (Z.shiftr checksum 8);
  let packet_len := Z.of_nat (length packet) - 2 in
  packet ← setitem packet 0x00 (Z.land packet_len 0xFF);
  packet ← setitem packet 0x01 (Z.shiftr packet_len 8);
  mret packet.

(** The calls that leave this module.  A command tree is either finished
    (with a value or an exception) or makes one external call and goes on
    with its answer. *)
Inductive Cmd (A : Type) : Type :=
  | Done (r : result A)
  | SendPacket (packet_type : Z) (payload : list Z) (k : list Z -> Cmd A)
  | CheckError (error : list Z) (k : unit -> Cmd A)
  | Decrypt (payload : list Z) (k : list Z -> Cmd A).
Arguments Done {A} r.
Arguments SendPacket {A} packet_type payload k.
Arguments CheckError {A} error k.
Arguments Decrypt {A} payload k.

Fixpoint Cmd_bind {A B : Type} (f : A -> Cmd B) (c : Cmd A) : Cmd B :=
  match c with
  | Done (Ok a) => f a
  | Done (Raise e) => Done (Raise e)
  | SendPacket t p k => SendPacket t p (fun resp => Cmd_bind f (k resp))
  | CheckError err k => CheckError err (fun u => Cmd_bind f (k u))
  | Decrypt p k => Decrypt p (fun d => Cmd_bind f (k d))
  end.

#[global] Instance Cmd_ret : MRet Cmd := fun A a => Done (Ok a).
#[global] Instance Cmd_mbind : MBind Cmd := @Cmd_bind.

Definition send_packet (packet_type : Z) (payload : list Z) : Cmd (list Z) :=
  SendPacket packet_type payload (fun resp => Done (Ok resp)).
Definition check_error (error : list Z) : Cmd unit :=
  CheckError error (fun u => Done (Ok u)).
Definition decrypt (payload : list Z) : Cmd (list Z) :=
  Decrypt payload (fun d => Done (Ok d)).

Definition _send (operation action action_arg : Z) : Cmd (list Z) :=
  packet ← Done (_send_packet operation action action_arg);
  resp ← send_packet 0x6A packet;
  _ ← check_error (slice resp 0x22 0x24);
  decrypt (slice_from resp 0x38).

(** *** The three operations *)

Definition get_state : Cmd PurifierState :=
  data ← _send GET_STATE 0 0;
  Done (_decode_state data).

Definition set_fan_speed (fan_speed : Z) : Cmd PurifierState :=
  data ← _send SET_STATE SET_FAN_SPEED fan_speed;
  Done (_decode_state data).

Definition set_fan_mode (fan_mode : FanMode) : Cmd PurifierState :=
  if decide (fan_mode = MANUAL) then set_fan_speed 50
  else
    match FAN_MODE_TO_ACTION_ARG !! fan_mode with
    | Some action_arg =>
        data ← _send SET_STATE SET_FAN_MODE action_arg;
        Done (_decode_state data)
    | None => get_state
    end.

(** ** Running a command tree against a device *)

Inductive event : Type :=
  | EvSend (packet_type : Z) (payload : list Z)
  | EvCheck (error : list Z)
  | EvDecrypt (payload : list Z).

Definition is_send (ev : event) : bool :=
  match ev with EvSend _ _ => true | _ => false end.

Section Run.
(** The device behind the codec: any state, any transport, any error
    table, any cipher.  Each call may fail and may change the state. *)
Context {World : Type}.
Variable dev_send_packet : Z -> list Z -> World -> result (list Z) * World.
Variable dev_check_error : list Z -> World -> result unit * World.
Variable dev_decrypt : list Z -> World -> result (list Z) * World.

(** The outcome, the final state and the external calls made, oldest
    first. *)
Fixpoint run {A : Type} (c : Cmd A) (w : World) : result A * World * list event :=
  match c with
  | Done r => (r, w, [])
  | SendPacket t p k =>
      match dev_send_packet t p w with
      | (Ok resp, w') =>
          let '(r, w'', tr) := run (k resp) w' in (r, w'', EvSend t p :: tr)
      | (Raise e, w') => (Raise e, w', [EvSend t p])
      end
  | CheckError err k =>
      match dev_check_error err w with
      | (Ok u, w') =>
          let '(r, w'', tr) := run (k u) w' in (r, w'', EvCheck err :: tr)
      | (Raise e, w') => (Raise e, w', [EvCheck err])
      end
  | Decrypt p k =>
      match dev_decrypt p w with
      | (Ok d, w') =>
          let '(r, w'', tr) := run (k d) w' in (r, w'', EvDecrypt p :: tr)
      | (Raise e, w') => (Raise e, w', [EvDecrypt p])
      end
  end.

Definition trace {A} (x : result A * World * list event) : list event := x.2.
End Run.

(** ** Vocabulary of the statements *)

(** The byte at offset [i], for stating what a successful read returns. *)
Definition byte_at (data : list Z) (i : nat) : Z := nth i data 0.

(** The buffer with the bytes at the offsets [idx] taken as zero. *)
Definition clear_at (idx : list nat) (p : list Z) : list Z :=
  foldr (fun i q => <[i := 0]> q) p idx.

(** The packets handed to the transport, oldest first. *)
Definition sends (tr : list event) : list event := List.filter is_send tr.

(** The packet [_send] builds for a command (building never fails, see
    [_send_packet_ok]). *)
Definition command_packet (operation action action_arg : Z) : list Z :=
  match _send_packet operation action action_arg with
  | Ok packet => packet
  | Raise _ => []
  end.

(** What [_send] does with the response once the packet is built. *)
Definition after_send (resp : list Z) : Cmd (list Z) :=
  _ ← check_error (slice resp 0x22 0x24);
  decrypt (slice_from resp 0x38).

(** The user-facing operations of the class. *)
Inductive is_operation : Cmd PurifierState -> Prop :=
  | op_get_state : is_operation get_state
  | op_set_fan_mode (fan_mode : FanMode) : is_operation (set_fan_mode fan_mode)
  | op_set_fan_speed (fan_speed : Z) : is_operation (set_fan_speed fan_speed).

(** *** A test double

    A device that answers every packet with a fixed response, counts the
    packets it was sent, reads the error code as a little-endian 16-bit
    value and fails on a non-zero one, and whose cipher is the identity. *)

Definition fixed_send_packet (resp : list Z) (_ : Z) (_ : list Z) (count : nat)
  : result (list Z) * nat := (Ok resp, S count).
Definition le16_check_error (error : list Z) (count : nat) : result unit * nat :=
  let code := byte_at error 0 + 256 * byte_at error 1 in
  if code =? 0 then (Ok tt, count) else (Raise (DeviceError code), count).
Definition plain_decrypt (payload : list Z) (count : nat) : result (list Z) * nat :=
  (Ok payload, count).

(** A 58-byte payload: 24.5 degrees (raw 245), 41 %, 425 ppm, tvoc raw
    15, particulates 9/7/5, then the three fan bytes. *)
Definition payload_with (fan_state fan_speed fan_flags : Z) : list Z :=
  replicate 27 0 ++ [245; 0; 41; 0; 169; 1; 0; 0; 15; 0; 9; 0; 7; 0; 5; 0]
  ++ replicate 12 0 ++ [fan_state; fan_speed; fan_flags].

(** A response frame: header with the error code at 0x22, payload from
    0x38. *)
Definition response_with (code : Z) (payload : list Z) : list Z :=
  replicate 0x22 0 ++ [Z.land code 0xFF; Z.shiftr code 8] ++ replicate 20 0 ++ payload.

(** The offsets [_decode_state_raw] reads, in the order it reads them. *)
Definition read_offsets : list nat :=
  [27; 28; 29; 31; 32; 35; 36; 37; 38; 39; 40; 41; 42; 55; 56; 57]%nat.

(** *** Checking the temperature conversion on every reading

    Ten times [t], rounded to the nearest integer, computed on the
    mantissa and exponent of [t]; meant for 0 <= t < 2^20. *)
Definition tenths (t : float) : PrimInt63.int :=
  let '(m, e) := PrimFloat.frshiftexp t in
  let mant := PrimFloat.normfr_mantissa m in
  let k := PrimInt63.sub (Uint63.of_Z 2154) e in
  PrimInt63.lsr
    (PrimInt63.add (PrimInt63.mul (Uint63.of_Z 10) mant)
                   (PrimInt63.lsl (Uint63.of_Z 1) (PrimInt63.sub k (Uint63.of_Z 1))))
    k.

(** The reading [raw] becomes a temperature between 0 and 6553.5 whose
    tenths are [raw] again. *)
Definition temperature_ok (raw : Z) : bool :=
  let t := truediv raw 10 in
  PrimFloat.leb 0 t && PrimFloat.leb t 6553.5 && PrimInt63.eqb (tenths t) (Uint63.of_Z raw).

Definition all_bytes : list Z := List.map Z.of_nat (List.seq 0 256).

(** ** Reading a payload *)

Lemma getitem_lt (data : list Z) (i : nat) :
  (i < length data)%nat -> getitem data i = Ok (byte_at data i).
Proof.
  intros Hi. unfold getitem, byte_at.
  destruct (lookup_lt_is_Some_2 data i Hi) as [b Hb].
  rewrite Hb. f_equal. symmetry. now apply nth_lookup_Some with (d := 0).
Qed.

Lemma getitem_ge (data : list Z) (i : nat) :
  (length data <= i)%nat -> getitem data i = Raise IndexError.
Proof.
  intros Hi. unfold getitem. now rewrite (lookup_ge_None_2 data i Hi).
Qed.

(** A read either succeeds or raises [IndexError], nothing else. *)
Lemma getitem_cases (data : list Z) (i : nat) :
  getitem data i = Ok (byte_at data i) \/ getitem data i = Raise IndexError.
Proof.
  destruct (Nat.lt_ge_cases i (length data)) as [H | H].
  - left. now apply getitem_lt.
  - right. now apply getitem_ge.
Qed.

Lemma is_bytes_byte_at (data : list Z) (i : nat) :
  is_bytes data = true -> 0 <= byte_at data i < 256.
Proof.
  unfold is_bytes, byte_at. intros H.
  destruct (Nat.lt_ge_cases i (length data)) as [Hi | Hi].
  - rewrite forallb_forall in H.
    specialize (H (nth i data 0) (nth_In data 0 Hi)).
    unfold is_byte in H. lia.
  - rewrite nth_overflow by lia. lia.
Qed.


Lemma _decode_state_raw_ok (data : list Z) :
  (58 <= length data)%nat ->
  _decode_state_raw data =
    Ok {| raw_temperature := byte_at data 27 + 256 * byte_at data 28;
          raw_humidity := byte_at data 29;
          raw_co2 := byte_at data 31 + 256 * byte_at data 32;
          raw_tvoc := byte_at data 35 + 256 * byte_at data 36;
          raw_pm10 := byte_at data 37 + 256 * byte_at data 38;
          raw_pm2_5 := byte_at data 39 + 256 * byte_at data 40;
          raw_pm1 := byte_at data 41 + 256 * byte_at data 42;
          raw_fan_state := byte_at data 55;
          raw_fan_speed := byte_at data 56;
          raw_fan_flags := byte_at data 57 |}.
Proof.
  intros Hlen. unfold _decode_state_raw.
  rewrite !getitem_lt by lia. reflexivity.
Qed.

Lemma _decode_state_raw_short (data : list Z) :
  (length data < 58)%nat -> _decode_state_raw data = Raise IndexError.
Proof.
  intros Hlen. unfold _decode_state_raw.
  rewrite (getitem_ge data 57) by lia.
  repeat match goal with
  | |- context [getitem data ?i ≫= _] =>
      destruct (getitem_cases data i) as [-> | ->]; [cbn | reflexivity]
  end.
  reflexivity.
Qed.

Lemma _decode_state_ok (data : list Z) :
  (58 <= length data)%nat ->
  _decode_state data =
    let fan_mode := _decode_fan_mode (byte_at data 55) (byte_at data 57) in
    let isOffline := match fan_mode with None => true | Some _ => false end in
    Ok {| temperature :=
            if isOffline then None
            else Some (truediv (byte_at data 27 + 256 * byte_at data 28) 10);
          humidity := if isOffline then None else Some (byte_at data 29);
          co2 := byte_at data 31 + 256 * byte_at data 32;
          tvoc := (byte_at data 35 + 256 * byte_at data 36) * 10;
          pm10 := byte_at data 37 + 256 * byte_at data 38;
          pm2_5 := byte_at data 39 + 256 * byte_at data 40;
          pm1 := byte_at data 41 + 256 * byte_at data 42;
          fan_mode := fan_mode;
          fan_speed := byte_at data 56 |}.
Proof.
  intros Hlen. unfold _decode_state.
  rewrite _decode_state_raw_ok by exact Hlen. reflexivity.
Qed.

(** ** The fan-mode tables *)

Lemma FAN_STATE_TO_MODE_lookup (fan_state : Z) :
  FAN_STATE_TO_MODE !! fan_state =
    match fan_state with
    | 0x81 => Some (Some OFF)
    | 0xA5 => Some (Some AUTO)
    | 0x95 => Some (Some NIGHT)
    | 0x8D => Some (Some TURBO)
    | 0x85 => Some (Some MANUAL)
    | 0x01 => Some None
    | _ => None
    end.
Proof.
  unfold FAN_STATE_TO_MODE.
  destruct (decide (fan_state = 0x81)) as [-> | H1]; [reflexivity |].
  destruct (decide (fan_state = 0xA5)) as [-> | H2]; [reflexivity |].
  destruct (decide (fan_state = 0x95)) as [-> | H3]; [reflexivity |].
  destruct (decide (fan_state = 0x8D)) as [-> | H4]; [reflexivity |].
  destruct (decide (fan_state = 0x85)) as [-> | H5]; [reflexivity |].
  destruct (decide (fan_state = 0x01)) as [-> | H6]; [reflexivity |].
  rewrite !lookup_insert_ne by congruence. rewrite lookup_empty.
  destruct fan_state as [| p | p]; try reflexivity.
  do 8 (try destruct p as [p | p |]; try reflexivity); congruence.
Qed.

Lemma FAN_MODE_TO_ACTION_ARG_lookup (fan_mode : FanMode) :
  FAN_MODE_TO_ACTION_ARG !! fan_mode =
    match fan_mode with
    | OFF => Some 1
    | AUTO => Some 2
    | NIGHT => Some 6
    | TURBO => Some 7
    | ANTI_ALLERGY => Some 11
    | MANUAL | UNKNOWN => None
    end.
Proof. destruct fan_mode; reflexivity. Qed.

Lemma FAN_STATE_TO_MODE_offline (fan_state : Z) :
  FAN_STATE_TO_MODE !! fan_state = Some None <-> fan_state = 0x01.
Proof.
  rewrite FAN_STATE_TO_MODE_lookup. split.
  - destruct fan_state as [| p | p]; try discriminate.
    do 8 (try destruct p as [p | p |]; try discriminate). reflexivity.
  - intros ->. reflexivity.
Qed.

Lemma _decode_fan_mode_offline (fan_state fan_flags : Z) :
  _decode_fan_mode fan_state fan_flags = None <->
  Z.land fan_flags 0x40 <> 0 /\ fan_state = 0x01.
Proof.
  unfold _decode_fan_mode.
  destruct (Z.eqb_spec (Z.land fan_flags 0x40) 0) as [Hz | Hnz].
  - split; [discriminate | intros [H _]; contradiction].
  - rewrite <- FAN_STATE_TO_MODE_offline.
    destruct (FAN_STATE_TO_MODE !! fan_state) as [[m |] |]; cbn;
      split; try discriminate; try tauto; intros [_ H]; discriminate.
Qed.

Lemma _decode_fan_mode_override (fan_state fan_flags : Z) :
  Z.land fan_flags 0x40 = 0 ->
  _decode_fan_mode fan_state fan_flags = Some ANTI_ALLERGY.
Proof. intros H. unfold _decode_fan_mode. now rewrite H. Qed.

(** ** Claims about decoding *)

(** C3. [_decode_fan_mode] is a total function of two integers (so of
    two bytes) with no failure case.  When bit 0x40 of [fan_flags] is clear
    it returns ANTI_ALLERGY whatever [fan_state] is; when the bit is set
    it returns OFF, AUTO, NIGHT, TURBO, MANUAL for 0x81, 0xA5, 0x95, 0x8D,
    0x85, [None] (main unit offline) for 0x01, and UNKNOWN for every other
    value. *)
Theorem decode_fan_mode_table (fan_state fan_flags : Z) :
  (Z.land fan_flags 0x40 = 0 ->
     _decode_fan_mode fan_state fan_flags = Some ANTI_ALLERGY) /\
  (Z.land fan_flags 0x40 <> 0 ->
     _decode_fan_mode fan_state fan_flags =
       match fan_state with
       | 0x81 => Some OFF
       | 0xA5 => Some AUTO
       | 0x95 => Some NIGHT
       | 0x8D => Some TURBO
       | 0x85 => Some MANUAL
       | 0x01 => None
       | _ => Some UNKNOWN
       end).
Proof.
  split; intros H.
  - now apply _decode_fan_mode_override.
  - unfold _decode_fan_mode. apply Z.eqb_neq in H. rewrite H.
    rewrite FAN_STATE_TO_MODE_lookup.
    destruct fan_state as [| p | p]; try reflexivity.
    do 8 (try destruct p as [p | p |]; try reflexivity).
Qed.

Lemma decode_fan_mode_table_witness :
  _decode_fan_mode 0x85 0x00 = Some ANTI_ALLERGY /\
  _decode_fan_mode 0x85 0xFF = Some MANUAL /\
  _decode_fan_mode 0x01 0xFF = None /\
  _decode_fan_mode 0xFF 0xFF = Some UNKNOWN.
Proof.
  split; [apply (decode_fan_mode_table 0x85 0x00); reflexivity |].
  split; [apply (decode_fan_mode_table 0x85 0xFF); discriminate |].
  split; [apply (decode_fan_mode_table 0x01 0xFF); discriminate |].
  apply (decode_fan_mode_table 0xFF 0xFF); discriminate.
Defined.

(** C1, as the code has it.  A payload shorter than 58 bytes makes both
    decoders raise the built-in [IndexError]: every read is bounds-checked
    by the indexing itself, the read at offset 57 cannot succeed, and no
    read raises anything else.  There is no length test and no
    ProtocolError. *)
Theorem decode_short_payload_IndexError (data : list Z) :
  (length data < 58)%nat ->
  _decode_state_raw data = Raise IndexError /\
  _decode_state data = Raise IndexError.
Proof.
  intros Hlen. unfold _decode_state.
  rewrite _decode_state_raw_short by exact Hlen. split; reflexivity.
Qed.

Lemma decode_short_payload_IndexError_witness :
  _decode_state_raw (take 57 (payload_with 0xA5 50 0x40)) = Raise IndexError /\
  _decode_state (take 57 (payload_with 0xA5 50 0x40)) = Raise IndexError.
Proof.
  apply (decode_short_payload_IndexError (take 57 (payload_with 0xA5 50 0x40))).
  vm_compute. lia.
Defined.

(** C1 as stated fails: a 57-byte payload is too short, and decoding it
    does not end in ProtocolError. *)
Lemma decode_short_payload_not_ProtocolError :
  (length (take 57 (payload_with 0xA5 50 0x40)) < 58)%nat /\
  _decode_state_raw (take 57 (payload_with 0xA5 50 0x40)) <> Raise ProtocolError /\
  _decode_state (take 57 (payload_with 0xA5 50 0x40)) <> Raise ProtocolError.
Proof.
  split; [vm_compute; lia |].
  split; vm_compute; discriminate.
Qed.

(** C4. For a payload of at least 58 bytes decoding succeeds, and the
    numeric fields are: temperature (when the fan mode is present) the
    16-bit little-endian value at 27-28 divided by 10.0; humidity (when
    present) the byte at 29; co2 the value at 31-32; tvoc ten times the
    value at 35-36; pm10, pm2_5, pm1 the values at 37-38, 39-40, 41-42.
    A raw temperature of 245 gives 24.5 and a raw tvoc of 15 gives 150. *)
Theorem decode_state_numeric_fields (data : list Z) :
  (58 <= length data)%nat ->
  exists st,
    _decode_state data = Ok st /\
    temperature st =
      match fan_mode st with
      | None => None
      | Some _ => Some (truediv (byte_at data 27 + 256 * byte_at data 28) 10)
      end /\
    humidity st =
      match fan_mode st with
      | None => None
      | Some _ => Some (byte_at data 29)
      end /\
    co2 st = byte_at data 31 + 256 * byte_at data 32 /\
    tvoc st = (byte_at data 35 + 256 * byte_at data 36) * 10 /\
    pm10 st = byte_at data 37 + 256 * byte_at data 38 /\
    pm2_5 st = byte_at data 39 + 256 * byte_at data 40 /\
    pm1 st = byte_at data 41 + 256 * byte_at data 42 /\
    (byte_at data 27 + 256 * byte_at data 28 = 245 ->
     fan_mode st <> None -> temperature st = Some 24.5%float) /\
    (byte_at data 35 + 256 * byte_at data 36 = 15 -> tvoc st = 150).
Proof.
  intros Hlen. rewrite _decode_state_ok by exact Hlen. cbv zeta.
  eexists. split; [reflexivity |]. cbn [temperature humidity co2 tvoc pm10 pm2_5 pm1 fan_mode].
  destruct (_decode_fan_mode (byte_at data 55) (byte_at data 57)) as [m |];
    repeat split; try reflexivity; try congruence; intros H; rewrite H; try reflexivity.
Qed.

Lemma decode_state_numeric_fields_witness :
  exists st,
    _decode_state (payload_with 0xA5 50 0x40) = Ok st /\
    temperature st = Some 24.5%float /\
    humidity st = Some 41 /\
    co2 st = 425 /\ tvoc st = 150 /\ pm10 st = 9 /\ pm2_5 st = 7 /\ pm1 st = 5.
Proof.
  destruct (decode_state_numeric_fields (payload_with 0xA5 50 0x40))
    as (st & Hst & Ht & Hh & Hc & Hv & H10 & H25 & H1 & _).
  - vm_compute. lia.
  - exists st. assert (Hm : fan_mode st = Some AUTO).
    { vm_compute in Hst. injection Hst as <-. reflexivity. }
    rewrite Hm in Ht, Hh.
    repeat split; assumption.
Defined.

(** C5. For a payload of at least 58 bytes, temperature, humidity and
    fan_mode are absent together or present together; they are absent
    exactly when the resolved fan mode is the offline value, that is when
    bit 0x40 of the flags is set and fan_state is 0x01.  co2, tvoc and the
    three particulate fields come from the raw bytes either way. *)
Theorem decode_state_offline_together (data : list Z) :
  (58 <= length data)%nat ->
  exists st,
    _decode_state data = Ok st /\
    fan_mode st = _decode_fan_mode (byte_at data 55) (byte_at data 57) /\
    (temperature st = None <-> fan_mode st = None) /\
    (humidity st = None <-> fan_mode st = None) /\
    (fan_mode st = None <->
       Z.land (byte_at data 57) 0x40 <> 0 /\ byte_at data 55 = 0x01) /\
    co2 st = byte_at data 31 + 256 * byte_at data 32 /\
    tvoc st = (byte_at data 35 + 256 * byte_at data 36) * 10 /\
    pm10 st = byte_at data 37 + 256 * byte_at data 38 /\
    pm2_5 st = byte_at data 39 + 256 * byte_at data 40 /\
    pm1 st = byte_at data 41 + 256 * byte_at data 42.
Proof.
  intros Hlen. rewrite _decode_state_ok by exact Hlen. cbv zeta.
  eexists. split; [reflexivity |].
  cbn [temperature humidity co2 tvoc pm10 pm2_5 pm1 fan_mode].
  split; [reflexivity |].
  rewrite <- _decode_fan_mode_offline.
  destruct (_decode_fan_mode (byte_at data 55) (byte_at data 57)) as [m |];
    repeat split; try reflexivity; try discriminate.
Qed.

Lemma decode_state_offline_together_witness :
  exists st,
    _decode_state (payload_with 0x01 0 0xFF) = Ok st /\
    temperature st = None /\ humidity st = None /\ fan_mode st = None /\
    co2 st = 425 /\ tvoc st = 150 /\ pm10 st = 9 /\ pm2_5 st = 7 /\ pm1 st = 5.
Proof.
  destruct (decode_state_offline_together (payload_with 0x01 0 0xFF))
    as (st & Hst & _ & Ht & Hh & Hm & Hc & Hv & H10 & H25 & H1).
  - vm_compute. lia.
  - exists st.
    assert (Hoff : fan_mode st = None).
    { apply Hm. split; [discriminate | reflexivity]. }
    split; [exact Hst |].
    split; [apply Ht; exact Hoff |].
    split; [apply Hh; exact Hoff |].
    split; [exact Hoff |].
    repeat split; assumption.
Defined.

(** C9, as the code has it.  The decoded fan_speed is the byte at offset
    56, unchanged: an integer from 0 to 255.  Nothing narrows it to the
    device's documented 0-121. *)
Theorem decode_state_fan_speed_byte (data : list Z) :
  (58 <= length data)%nat ->
  is_bytes data = true ->
  exists st,
    _decode_state data = Ok st /\
    fan_speed st = byte_at data 56 /\
    0 <= fan_speed st <= 255.
Proof.
  intros Hlen Hbytes. rewrite _decode_state_ok by exact Hlen. cbv zeta.
  eexists. split; [reflexivity |]. cbn [fan_speed].
  split; [reflexivity |].
  pose proof (is_bytes_byte_at data 56 Hbytes). lia.
Qed.

Lemma decode_state_fan_speed_byte_witness :
  exists st,
    _decode_state (payload_with 0x85 121 0x40) = Ok st /\
    fan_speed st = 121 /\
    0 <= fan_speed st <= 255.
Proof.
  apply (decode_state_fan_speed_byte (payload_with 0x85 121 0x40)).
  - vm_compute. lia.
  - reflexivity.
Defined.

(** C9 as stated fails: a well-formed 58-byte payload whose byte at
    offset 56 is 200 decodes to fan_speed 200. *)
Lemma decode_state_fan_speed_above_121 :
  (58 <= length (payload_with 0x85 200 0x40))%nat /\
  is_bytes (payload_with 0x85 200 0x40) = true /\
  exists st,
    _decode_state (payload_with 0x85 200 0x40) = Ok st /\
    fan_speed st = 200 /\
    ~ (0 <= fan_speed st <= 121).
Proof.
  split; [vm_compute; lia |].
  split; [reflexivity |].
  eexists. split; [vm_compute; reflexivity |].
  cbn [fan_speed]. split; [reflexivity | lia].
Qed.

(** C10. With bit 0x40 of the flags byte (offset 57) clear, the state of
    a payload of at least 58 bytes is never the offline one: fan_mode is
    ANTI_ALLERGY, temperature and humidity are present, whatever the
    fan_state byte is, 0x01 included. *)
Theorem decode_state_override_masks_offline (data : list Z) :
  (58 <= length data)%nat ->
  Z.land (byte_at data 57) 0x40 = 0 ->
  exists st,
    _decode_state data = Ok st /\
    fan_mode st = Some ANTI_ALLERGY /\
    temperature st = Some (truediv (byte_at data 27 + 256 * byte_at data 28) 10) /\
    humidity st = Some (byte_at data 29).
Proof.
  intros Hlen Hflag. rewrite _decode_state_ok by exact Hlen. cbv zeta.
  rewrite (_decode_fan_mode_override (byte_at data 55) (byte_at data 57) Hflag).
  eexists. repeat split.
Qed.

Lemma decode_state_override_masks_offline_witness :
  exists st,
    _decode_state (payload_with 0x01 0 0x00) = Ok st /\
    fan_mode st = Some ANTI_ALLERGY /\
    temperature st = Some 24.5%float /\
    humidity st = Some 41.
Proof.
  apply (decode_state_override_masks_offline (payload_with 0x01 0 0x00)).
  - vm_compute. lia.
  - reflexivity.
Defined.

(** ** The command packet *)

Lemma setitem_ok (packet : list Z) (i : nat) (v : Z) :
  (i < length packet)%nat -> 0 <= v < 256 ->
  setitem packet i v = Ok (<[i := v]> packet).
Proof.
  intros Hi Hv. unfold setitem, is_byte.
  destruct (decide (i < length packet)%nat) as [_ | Hn]; [| contradiction].
  destruct (Z.leb_spec 0 v); [| lia].
  destruct (Z.ltb_spec v 256); [reflexivity | lia].
Qed.

Lemma land_0xFF_mod (x : Z) : Z.land x 0xFF = x mod 256.
Proof. change 0xFF with (Z.ones 8). now rewrite Z.land_ones by lia. Qed.

Lemma land_0xFFFF_mod (x : Z) : Z.land x 0xFFFF = x mod 65536.
Proof. change 0xFFFF with (Z.ones 16). now rewrite Z.land_ones by lia. Qed.

Lemma land_0xFF_byte (x : Z) : 0 <= Z.land x 0xFF < 256.
Proof. rewrite land_0xFF_mod. apply Z.mod_pos_bound. lia. Qed.

Lemma shiftr_8_byte (c : Z) : 0 <= c < 65536 -> 0 <= Z.shiftr c 8 < 256.
Proof.
  intros Hc. rewrite Z.shiftr_div_pow2 by lia. change (2 ^ 8) with 256.
  split; [apply Z.div_pos; lia | apply Z.div_lt_upper_bound; lia].
Qed.

Lemma le16_split (c : Z) : Z.land c 0xFF + 256 * Z.shiftr c 8 = c.
Proof.
  rewrite land_0xFF_mod, Z.shiftr_div_pow2 by lia. change (2 ^ 8) with 256.
  pose proof (Z.div_mod c 256). lia.
Qed.

Lemma setitem_bind {B : Type} (packet : list Z) (i : nat) (v : Z)
    (k : list Z -> result B) :
  (i < length packet)%nat -> 0 <= v < 256 ->
  (setitem packet i v ≫= k) = k (<[i := v]> packet).
Proof. intros Hi Hv. now rewrite setitem_ok. Qed.

Lemma bytes_sum_header (o a x : Z) :
  bytes_sum [0; 0; 0xA5; 0xA5; 0x5A; 0x5A; 0; 0; o; 0; 0x0C; 0; 0; 0; a; x;
             0; 0; 0; 0; 0; 0; 0; 0; 0; 0] 0xBEAF =
  0xBEAF + 0xA5 + 0xA5 + 0x5A + 0x5A + o + 0x0C + a + x.
Proof. unfold bytes_sum. cbn [foldl]. lia. Qed.

Ltac setitem_step :=
  rewrite setitem_bind by (cbn [length]; lia);
  cbv beta; cbn [insert list_insert].

(** The packet of [_send], in closed form. *)
Lemma _send_packet_ok (operation action action_arg : Z) :
  let checksum :=
    Z.land (0xBEAF + 0xA5 + 0xA5 + 0x5A + 0x5A + Z.land operation 0xFF + 0x0C
            + Z.land action 0xFF + Z.land action_arg 0xFF) 0xFFFF in
  _send_packet operation action action_arg =
    Ok [24; 0; 0xA5; 0xA5; 0x5A; 0x5A; Z.land checksum 0xFF; Z.shiftr checksum 8;
        Z.land operation 0xFF; 0; 0x0C; 0; 0; 0;
        Z.land action 0xFF; Z.land action_arg 0xFF;
        0; 0; 0; 0; 0; 0; 0; 0; 0; 0].
Proof.
  cbv zeta. unfold _send_packet, bytearray.
  generalize (land_0xFF_byte operation). generalize (Z.land operation 0xFF). intros o Ho.
  generalize (land_0xFF_byte action). generalize (Z.land action 0xFF). intros a Ha.
  generalize (land_0xFF_byte action_arg). generalize (Z.land action_arg 0xFF). intros x Hx.
  cbn [replicate].
  do 8 setitem_step.
  rewrite bytes_sum_header.
  assert (Hc : 0 <= Z.land (0xBEAF + 0xA5 + 0xA5 + 0x5A + 0x5A + o + 0x0C + a + x) 0xFFFF < 65536).
  { rewrite land_0xFFFF_mod. apply Z.mod_pos_bound. lia. }
  revert Hc.
  generalize (Z.land (0xBEAF + 0xA5 + 0xA5 + 0x5A + 0x5A + o + 0x0C + a + x) 0xFFFF).
  intros c Hc.
  generalize (land_0xFF_byte c). generalize (Z.land c 0xFF). intros c0 Hc0.
  generalize (shiftr_8_byte c Hc). generalize (Z.shiftr c 8). intros c1 Hc1.
  do 2 setitem_step.
  cbn [length].
  assert (Hlen : Z.of_nat 26 - 2 = 24) by reflexivity. rewrite Hlen.
  assert (Hlo : Z.land 24 0xFF = 24) by reflexivity. rewrite Hlo.
  assert (Hhi : Z.shiftr 24 8 = 0) by reflexivity. rewrite Hhi.
  do 2 setitem_step.
  reflexivity.
Qed.

(** C2. For all integers [operation], [action], [action_arg] the packet
    is built without error and is the 26-byte buffer with: the length 24
    little-endian at 0x00-0x01; the magic bytes A5 A5 5A 5A at 0x02-0x05;
    the checksum little-endian at 0x06-0x07, equal to 0xBEAF plus the sum
    of the 26 bytes with the checksum and length bytes taken as zero,
    modulo 65536; the low 8 bits of [operation], [action], [action_arg] at
    0x08, 0x0E, 0x0F; 0x0C at 0x0A; zero everywhere else.  The checksum was
    taken while the length bytes were still zero: adding the length bytes
    as written (24 in all) would give a different sum. *)
Theorem send_packet_layout (operation action action_arg : Z) :
  exists packet checksum,
    _send_packet operation action action_arg = Ok packet /\
    packet =
      [24; 0; 0xA5; 0xA5; 0x5A; 0x5A; Z.land checksum 0xFF; Z.shiftr checksum 8;
       operation mod 256; 0; 0x0C; 0; 0; 0; action mod 256; action_arg mod 256;
       0; 0; 0; 0; 0; 0; 0; 0; 0; 0] /\
    length packet = 26%nat /\
    is_bytes packet = true /\
    byte_at packet 0 + 256 * byte_at packet 1 = 24 /\
    byte_at packet 6 + 256 * byte_at packet 7 = checksum /\
    checksum = (0xBEAF + bytes_sum (clear_at [0; 1; 6; 7]%nat packet) 0) mod 65536 /\
    checksum = (0xBEAF + bytes_sum (clear_at [6; 7]%nat packet) 0 - 24) mod 65536.
Proof.
  pose proof (_send_packet_ok operation action action_arg) as Hok.
  cbv zeta in Hok. rewrite !land_0xFF_mod in Hok. rewrite land_0xFFFF_mod in Hok.
  rewrite <- (land_0xFF_mod (_ mod 65536)) in Hok.
  pose proof (Z.mod_pos_bound operation 256 ltac:(lia)) as Ho.
  pose proof (Z.mod_pos_bound action 256 ltac:(lia)) as Ha.
  pose proof (Z.mod_pos_bound action_arg 256 ltac:(lia)) as Hx.
  revert Hok Ho Ha Hx.
  generalize (operation mod 256), (action mod 256), (action_arg mod 256).
  intros o a x Hok Ho Ha Hx.
  set (c := (0xBEAF + 0xA5 + 0xA5 + 0x5A + 0x5A + o + 0x0C + a + x) mod 65536) in *.
  assert (Hc : 0 <= c < 65536) by (apply Z.mod_pos_bound; lia).
  pose proof (land_0xFF_byte c) as Hc0.
  pose proof (shiftr_8_byte c Hc) as Hc1.
  pose proof (le16_split c) as Hle.
  assert (Hcdef : c = (0xBEAF + 0xA5 + 0xA5 + 0x5A + 0x5A + o + 0x0C + a + x) mod 65536)
    by reflexivity.
  clearbody c.
  eexists. exists c.
  split; [exact Hok |].
  split; [reflexivity |].
  split; [reflexivity |].
  split.
  { unfold is_bytes, is_byte. cbn [forallb].
    repeat match goal with
    | |- context [(0 <=? ?v)] => destruct (Z.leb_spec 0 v); [| lia]
    | |- context [(?v <? 256)] => destruct (Z.ltb_spec v 256); [| lia]
    end. reflexivity. }
  split; [reflexivity |].
  split; [exact Hle |].
  unfold clear_at, bytes_sum. cbn [foldr insert list_insert foldl].
  split; rewrite Hcdef; f_equal; lia.
Qed.

(** ** The operations *)

Lemma command_packet_ok (operation action action_arg : Z) :
  _send_packet operation action action_arg =
    Ok (command_packet operation action action_arg).
Proof.
  unfold command_packet.
  pose proof (_send_packet_ok operation action action_arg) as H.
  cbv zeta in H. now rewrite H.
Qed.

Lemma _send_tree (operation action action_arg : Z) :
  _send operation action action_arg =
    SendPacket 0x6A (command_packet operation action action_arg) after_send.
Proof.
  unfold _send. rewrite command_packet_ok. reflexivity.
Qed.

Section RunOperation.
Context {World : Type}.
Variable dev_send_packet : Z -> list Z -> World -> result (list Z) * World.
Variable dev_check_error : list Z -> World -> result unit * World.
Variable dev_decrypt : list Z -> World -> result (list Z) * World.

Local Abbreviation run' := (run dev_send_packet dev_check_error dev_decrypt).

(** One command, start to finish: send, check the error code, decrypt,
    decode; the first failure ends it. *)
Lemma run_send_decode (operation action action_arg : Z) (w : World) :
  let packet := command_packet operation action action_arg in
  run' (data ← _send operation action action_arg; Done (_decode_state data)) w =
    match dev_send_packet 0x6A packet w with
    | (Raise e, w1) => (Raise e, w1, [EvSend 0x6A packet])
    | (Ok resp, w1) =>
        match dev_check_error (slice resp 0x22 0x24) w1 with
        | (Raise e, w2) =>
            (Raise e, w2, [EvSend 0x6A packet; EvCheck (slice resp 0x22 0x24)])
        | (Ok _, w2) =>
            match dev_decrypt (slice_from resp 0x38) w2 with
            | (Raise e, w3) =>
                (Raise e, w3,
                 [EvSend 0x6A packet; EvCheck (slice resp 0x22 0x24);
                  EvDecrypt (slice_from resp 0x38)])
            | (Ok data, w3) =>
                (_decode_state data, w3,
                 [EvSend 0x6A packet; EvCheck (slice resp 0x22 0x24);
                  EvDecrypt (slice_from resp 0x38)])
            end
        end
    end.
Proof.
  intros packet. rewrite _send_tree. fold packet.
  cbn [mbind Cmd_mbind Cmd_bind run].
  destruct (dev_send_packet 0x6A packet w) as [[resp | e] w1]; [| reflexivity].
  unfold after_send, check_error, decrypt.
  cbn [mbind Cmd_mbind Cmd_bind run].
  destruct (dev_check_error (slice resp 0x22 0x24) w1) as [[u | e] w2]; [| reflexivity].
  cbn [mbind Cmd_mbind Cmd_bind run].
  destruct (dev_decrypt (slice_from resp 0x38) w2) as [[data | e] w3]; reflexivity.
Qed.

Lemma run_send_decode_sends (operation action action_arg : Z) (w : World) :
  sends (trace (run' (data ← _send operation action action_arg;
                      Done (_decode_state data)) w)) =
    [EvSend 0x6A (command_packet operation action action_arg)].
Proof.
  rewrite run_send_decode. cbv zeta.
  destruct (dev_send_packet 0x6A _ w) as [[resp | e] w1]; [| reflexivity].
  destruct (dev_check_error _ w1) as [[u | e] w2]; [| reflexivity].
  destruct (dev_decrypt _ w2) as [[data | e] w3]; reflexivity.
Qed.
End RunOperation.

(** Every operation is one command followed by the decoding of its
    reply. *)
Lemma is_operation_command (c : Cmd PurifierState) :
  is_operation c ->
  exists operation action action_arg,
    c = (data ← _send operation action action_arg; Done (_decode_state data)).
Proof.
  intros [| m | speed].
  - exists GET_STATE, 0, 0. reflexivity.
  - unfold set_fan_mode.
    destruct (decide (m = MANUAL)) as [_ | _].
    + exists SET_STATE, SET_FAN_SPEED, 50. reflexivity.
    + destruct (FAN_MODE_TO_ACTION_ARG !! m) as [action_arg |].
      * exists SET_STATE, SET_FAN_MODE, action_arg. reflexivity.
      * exists GET_STATE, 0, 0. reflexivity.
  - exists SET_STATE, SET_FAN_SPEED, speed. reflexivity.
Qed.

(** C6. [set_fan_mode MANUAL] is [set_fan_speed 50]: the same command
    tree, hence on every device the same run (result, final state and
    calls) and the same single outbound packet, the one built for
    operation SET_STATE = 1, action SET_FAN_SPEED = 1, argument 50. *)
Theorem set_fan_mode_manual_is_set_fan_speed_50 :
  let packet :=
    [24; 0; 0xA5; 0xA5; 0x5A; 0x5A; 0xED; 0xC0; 1; 0; 0x0C; 0; 0; 0; 1; 50;
     0; 0; 0; 0; 0; 0; 0; 0; 0; 0] in
  set_fan_mode MANUAL = set_fan_speed 50 /\
  _send_packet SET_STATE SET_FAN_SPEED 50 = Ok packet /\
  SET_STATE = 1 /\ SET_FAN_SPEED = 1 /\
  forall (World : Type)
         (dev_send_packet : Z -> list Z -> World -> result (list Z) * World)
         (dev_check_error : list Z -> World -> result unit * World)
         (dev_decrypt : list Z -> World -> result (list Z) * World)
         (w : World),
    run dev_send_packet dev_check_error dev_decrypt (set_fan_mode MANUAL) w =
      run dev_send_packet dev_check_error dev_decrypt (set_fan_speed 50) w /\
    sends (trace (run dev_send_packet dev_check_error dev_decrypt
                      (set_fan_mode MANUAL) w)) = [EvSend 0x6A packet] /\
    sends (trace (run dev_send_packet dev_check_error dev_decrypt
                      (set_fan_speed 50) w)) = [EvSend 0x6A packet].
Proof.
  intros packet.
  assert (Hpacket : command_packet SET_STATE SET_FAN_SPEED 50 = packet)
    by (vm_compute; reflexivity).
  split; [reflexivity |].
  split; [rewrite command_packet_ok, Hpacket; reflexivity |].
  split; [reflexivity |]. split; [reflexivity |].
  intros World dev_send_packet dev_check_error dev_decrypt w.
  change (set_fan_mode MANUAL) with (set_fan_speed 50).
  split; [reflexivity |].
  rewrite <- Hpacket. split; apply run_send_decode_sends.
Qed.

(** C7 as stated fails: MANUAL has no entry in FAN_MODE_TO_ACTION_ARG,
    yet [set_fan_mode MANUAL] sends a SET_STATE packet (operation byte 1),
    not the GET_STATE packet (operation byte 2) of [get_state]. *)
Lemma set_fan_mode_manual_not_get_state :
  FAN_MODE_TO_ACTION_ARG !! MANUAL = None /\
  sends (trace (run (fixed_send_packet (response_with 0 (payload_with 0x85 50 0x40)))
                    le16_check_error plain_decrypt (set_fan_mode MANUAL) 0%nat)) =
    [EvSend 0x6A [24; 0; 0xA5; 0xA5; 0x5A; 0x5A; 0xED; 0xC0; 1; 0; 0x0C; 0; 0; 0; 1; 50;
                  0; 0; 0; 0; 0; 0; 0; 0; 0; 0]] /\
  sends (trace (run (fixed_send_packet (response_with 0 (payload_with 0x85 50 0x40)))
                    le16_check_error plain_decrypt get_state 0%nat)) =
    [EvSend 0x6A [24; 0; 0xA5; 0xA5; 0x5A; 0x5A; 0xBB; 0xC0; 2; 0; 0x0C; 0; 0; 0; 0; 0;
                  0; 0; 0; 0; 0; 0; 0; 0; 0; 0]] /\
  sends (trace (run (fixed_send_packet (response_with 0 (payload_with 0x85 50 0x40)))
                    le16_check_error plain_decrypt (set_fan_mode MANUAL) 0%nat)) <>
  sends (trace (run (fixed_send_packet (response_with 0 (payload_with 0x85 50 0x40)))
                    le16_check_error plain_decrypt get_state 0%nat)).
Proof.
  split; [reflexivity |].
  split; [vm_compute; reflexivity |].
  split; [vm_compute; reflexivity |].
  vm_compute. discriminate.
Qed.

(** C7, as the code has it.  For every mode other than MANUAL that has no
    entry in FAN_MODE_TO_ACTION_ARG (UNKNOWN is one), [set_fan_mode] is
    [get_state]: on every device its only outbound packet is the
    GET_STATE one (operation 2, action 0, argument 0), so no SET_STATE
    command is sent. *)
Theorem set_fan_mode_unmapped_is_get_state (fan_mode : FanMode) :
  fan_mode <> MANUAL ->
  FAN_MODE_TO_ACTION_ARG !! fan_mode = None ->
  let packet :=
    [24; 0; 0xA5; 0xA5; 0x5A; 0x5A; 0xBB; 0xC0; 2; 0; 0x0C; 0; 0; 0; 0; 0;
     0; 0; 0; 0; 0; 0; 0; 0; 0; 0] in
  set_fan_mode fan_mode = get_state /\
  _send_packet GET_STATE 0 0 = Ok packet /\
  GET_STATE = 2 /\ byte_at packet 0x08 <> SET_STATE /\
  forall (World : Type)
         (dev_send_packet : Z -> list Z -> World -> result (list Z) * World)
         (dev_check_error : list Z -> World -> result unit * World)
         (dev_decrypt : list Z -> World -> result (list Z) * World)
         (w : World),
    run dev_send_packet dev_check_error dev_decrypt (set_fan_mode fan_mode) w =
      run dev_send_packet dev_check_error dev_decrypt get_state w /\
    sends (trace (run dev_send_packet dev_check_error dev_decrypt
                      (set_fan_mode fan_mode) w)) = [EvSend 0x6A packet] /\
    sends (trace (run dev_send_packet dev_check_error dev_decrypt get_state w)) =
      [EvSend 0x6A packet].
Proof.
  intros Hmanual Hnone packet.
  assert (Hpacket : command_packet GET_STATE 0 0 = packet)
    by (vm_compute; reflexivity).
  assert (Heq : set_fan_mode fan_mode = get_state).
  { unfold set_fan_mode.
    destruct (decide (fan_mode = MANUAL)) as [Hm | _]; [contradiction |].
    now rewrite Hnone. }
  split; [exact Heq |].
  split; [rewrite command_packet_ok, Hpacket; reflexivity |].
  split; [reflexivity |]. split; [discriminate |].
  intros World dev_send_packet dev_check_error dev_decrypt w.
  rewrite Heq. split; [reflexivity |].
  rewrite <- Hpacket. split; apply run_send_decode_sends.
Qed.

Lemma set_fan_mode_unmapped_is_get_state_witness :
  set_fan_mode UNKNOWN = get_state /\
  sends (trace (run (fixed_send_packet (response_with 0 (payload_with 0x85 50 0x40)))
                    le16_check_error plain_decrypt (set_fan_mode UNKNOWN) 0%nat)) =
    [EvSend 0x6A [24; 0; 0xA5; 0xA5; 0x5A; 0x5A; 0xBB; 0xC0; 2; 0; 0x0C; 0; 0; 0; 0; 0;
                  0; 0; 0; 0; 0; 0; 0; 0; 0; 0]].
Proof.
  destruct (set_fan_mode_unmapped_is_get_state UNKNOWN) as (Heq & _ & _ & _ & Hrun).
  - discriminate.
  - reflexivity.
  - split; [exact Heq |].
    apply (Hrun nat (fixed_send_packet (response_with 0 (payload_with 0x85 50 0x40)))
                le16_check_error plain_decrypt 0%nat).
Defined.

(** C8. Every operation sends its packet, hands bytes 0x22 and 0x23 of
    the response (the slice 0x22:0x24) to the error check, and only then
    decrypts the bytes from 0x38 on and decodes them.  When the error
    check raises, the operation ends there with that exception: nothing
    is decrypted and no state is decoded.  The run of an operation on any
    device is one of four: the transport failed; the error check failed;
    the decryption failed; or all three calls succeeded, in this order,
    and the outcome is the decoding of the decrypted payload. *)
Theorem error_check_before_decode (c : Cmd PurifierState) :
  is_operation c ->
  exists packet,
  forall (World : Type)
         (dev_send_packet : Z -> list Z -> World -> result (list Z) * World)
         (dev_check_error : list Z -> World -> result unit * World)
         (dev_decrypt : list Z -> World -> result (list Z) * World)
         (w : World),
    run dev_send_packet dev_check_error dev_decrypt c w =
      match dev_send_packet 0x6A packet w with
      | (Raise e, w1) => (Raise e, w1, [EvSend 0x6A packet])
      | (Ok resp, w1) =>
          match dev_check_error (slice resp 0x22 0x24) w1 with
          | (Raise e, w2) =>
              (Raise e, w2, [EvSend 0x6A packet; EvCheck (slice resp 0x22 0x24)])
          | (Ok _, w2) =>
              match dev_decrypt (slice_from resp 0x38) w2 with
              | (Raise e, w3) =>
                  (Raise e, w3,
                   [EvSend 0x6A packet; EvCheck (slice resp 0x22 0x24);
                    EvDecrypt (slice_from resp 0x38)])
              | (Ok data, w3) =>
                  (_decode_state data, w3,
                   [EvSend 0x6A packet; EvCheck (slice resp 0x22 0x24);
                    EvDecrypt (slice_from resp 0x38)])
              end
          end
      end.
Proof.
  intros Hop.
  destruct (is_operation_command c Hop) as (operation & action & action_arg & ->).
  exists (command_packet operation action action_arg).
  intros World dev_send_packet dev_check_error dev_decrypt w.
  apply run_send_decode.
Qed.

Lemma error_check_before_decode_witness :
  exists packet,
    run (fixed_send_packet (response_with 7 (payload_with 0x85 50 0x40)))
        le16_check_error plain_decrypt get_state 0%nat =
      (Raise (DeviceError 7), 1%nat, [EvSend 0x6A packet; EvCheck [7; 0]]) /\
    run (fixed_send_packet (response_with 0 (payload_with 0x85 50 0x40)))
        le16_check_error plain_decrypt get_state 0%nat =
      (_decode_state (payload_with 0x85 50 0x40), 1%nat,
       [EvSend 0x6A packet; EvCheck [0; 0]; EvDecrypt (payload_with 0x85 50 0x40)]).
Proof.
  destruct (error_check_before_decode get_state op_get_state) as [packet Hrun].
  exists packet. split.
  - apply (Hrun nat (fixed_send_packet (response_with 7 (payload_with 0x85 50 0x40)))
                le16_check_error plain_decrypt 0%nat).
  - apply (Hrun nat (fixed_send_packet (response_with 0 (payload_with 0x85 50 0x40)))
                le16_check_error plain_decrypt 0%nat).
Defined.

(** ** Further properties of the command packet *)

(** The checksum never reaches 65536, so the 16-bit mask leaves it as it
    is, and the packet has a closed form in the three command bytes. *)
Lemma command_packet_closed (operation action action_arg : Z) :
  command_packet operation action action_arg =
    [24; 0; 0xA5; 0xA5; 0x5A; 0x5A;
     (0xC0B9 + operation mod 256 + action mod 256 + action_arg mod 256) mod 256;
     (0xC0B9 + operation mod 256 + action mod 256 + action_arg mod 256) / 256;
     operation mod 256; 0; 0x0C; 0; 0; 0; action mod 256; action_arg mod 256;
     0; 0; 0; 0; 0; 0; 0; 0; 0; 0].
Proof.
  pose proof (_send_packet_ok operation action action_arg) as Hok.
  cbv zeta in Hok. unfold command_packet. rewrite Hok. clear Hok.
  rewrite land_0xFFFF_mod, !land_0xFF_mod.
  pose proof (Z.mod_pos_bound operation 256 ltac:(lia)) as Ho.
  pose proof (Z.mod_pos_bound action 256 ltac:(lia)) as Ha.
  pose proof (Z.mod_pos_bound action_arg 256 ltac:(lia)) as Hx.
  revert Ho Ha Hx.
  generalize (operation mod 256), (action mod 256), (action_arg mod 256).
  intros o a x Ho Ha Hx.
  rewrite (Z.mod_small (0xBEAF + 0xA5 + 0xA5 + 0x5A + 0x5A + o + 0x0C + a + x) 65536)
    by lia.
  rewrite Z.shiftr_div_pow2 by lia.
  replace (0xBEAF + 0xA5 + 0xA5 + 0x5A + 0x5A + o + 0x0C + a + x)
    with (0xC0B9 + o + a + x) by lia.
  reflexivity.
Qed.

(** X1. Two commands give the same packet exactly when their operation,
    action and argument agree modulo 256: nothing but the low 8 bits of
    each reaches the wire, and each of the three is recoverable from it. *)
Theorem send_packet_eq_iff (operation action action_arg operation' action' action_arg' : Z) :
  _send_packet operation action action_arg = _send_packet operation' action' action_arg' <->
  operation mod 256 = operation' mod 256 /\
  action mod 256 = action' mod 256 /\
  action_arg mod 256 = action_arg' mod 256.
Proof.
  rewrite !command_packet_ok, !command_packet_closed. split.
  - intros H. injection H as _ _ Ho Ha Hx. auto.
  - intros (-> & -> & ->). reflexivity.
Qed.

(** X2. The checksum is 0xC0B9 plus the three command bytes, without
    wrap-around: the mask with 0xFFFF never cuts anything off, and the
    high checksum byte lies between 0xC0 and 0xC3. *)
Theorem send_packet_checksum_closed (operation action action_arg : Z) :
  exists packet,
    _send_packet operation action action_arg = Ok packet /\
    byte_at packet 0x06 + 256 * byte_at packet 0x07 =
      0xC0B9 + operation mod 256 + action mod 256 + action_arg mod 256 /\
    0xC0 <= byte_at packet 0x07 <= 0xC3.
Proof.
  exists (command_packet operation action action_arg).
  split; [apply command_packet_ok |].
  rewrite command_packet_closed. cbn [byte_at nth].
  pose proof (Z.mod_pos_bound operation 256 ltac:(lia)).
  pose proof (Z.mod_pos_bound action 256 ltac:(lia)).
  pose proof (Z.mod_pos_bound action_arg 256 ltac:(lia)).
  set (c := 0xC0B9 + operation mod 256 + action mod 256 + action_arg mod 256) in *.
  pose proof (Z.div_mod c 256 ltac:(lia)).
  pose proof (Z.mod_pos_bound c 256 ltac:(lia)).
  assert (0xC0B9 <= c <= 0xC3B6) by (unfold c; lia).
  clearbody c. split; [lia |].
  split; [apply Z.div_le_lower_bound; lia | ].
  assert (c / 256 < 0xC4) by (apply Z.div_lt_upper_bound; lia). lia.
Qed.

Lemma set_fan_speed_tree (fan_speed : Z) :
  set_fan_speed fan_speed =
    SendPacket 0x6A (command_packet SET_STATE SET_FAN_SPEED fan_speed)
      (fun resp => data ← after_send resp; Done (_decode_state data)).
Proof. unfold set_fan_speed. rewrite _send_tree. reflexivity. Qed.

(** X3. [set_fan_speed] does not reject a speed outside 0-255: it acts
    exactly as for the speed modulo 256 (306 as 50, -1 as 255).  Its one
    packet carries SET_STATE, SET_FAN_SPEED and the speed modulo 256, which
    is the speed itself when that lies in 0-255. *)
Theorem set_fan_speed_wraps (fan_speed : Z) :
  set_fan_speed fan_speed = set_fan_speed (fan_speed mod 256) /\
  exists packet,
    _send_packet SET_STATE SET_FAN_SPEED fan_speed = Ok packet /\
    byte_at packet 0x08 = SET_STATE /\
    byte_at packet 0x0E = SET_FAN_SPEED /\
    byte_at packet 0x0F = fan_speed mod 256 /\
    (0 <= fan_speed < 256 <-> byte_at packet 0x0F = fan_speed) /\
    forall (World : Type)
           (dev_send_packet : Z -> list Z -> World -> result (list Z) * World)
           (dev_check_error : list Z -> World -> result unit * World)
           (dev_decrypt : list Z -> World -> result (list Z) * World)
           (w : World),
      sends (trace (run dev_send_packet dev_check_error dev_decrypt
                        (set_fan_speed fan_speed) w)) = [EvSend 0x6A packet].
Proof.
  split.
  - rewrite !set_fan_speed_tree. f_equal.
    rewrite !command_packet_closed. now rewrite Z.mod_mod by lia.
  - exists (command_packet SET_STATE SET_FAN_SPEED fan_speed).
    split; [apply command_packet_ok |].
    split; [now rewrite command_packet_closed |].
    split; [now rewrite command_packet_closed |].
    split; [now rewrite command_packet_closed |].
    split.
    + rewrite command_packet_closed. cbn [byte_at nth].
      pose proof (Z.mod_pos_bound fan_speed 256 ltac:(lia)).
      split; [intros; apply Z.mod_small; lia | lia].
    + intros. apply run_send_decode_sends.
Qed.

(** ** Further properties of the operations *)

(** The command behind each mode. *)
Lemma set_fan_mode_command (fan_mode : FanMode) :
  set_fan_mode fan_mode =
    (data ← _send
       (match fan_mode with UNKNOWN => GET_STATE | _ => SET_STATE end)
       (match fan_mode with
        | UNKNOWN => 0
        | MANUAL => SET_FAN_SPEED
        | _ => SET_FAN_MODE
        end)
       (match fan_mode with
        | OFF => 1
        | AUTO => 2
        | NIGHT => 6
        | TURBO => 7
        | ANTI_ALLERGY => 11
        | MANUAL => 50
        | UNKNOWN => 0
        end);
     Done (_decode_state data)).
Proof. destruct fan_mode; reflexivity. Qed.

(** X4. For a mode with an entry in FAN_MODE_TO_ACTION_ARG (OFF 1,
    AUTO 2, NIGHT 6, TURBO 7, ANTI_ALLERGY 11) [set_fan_mode] sends, on
    every device, exactly one packet: SET_STATE at 0x08, SET_FAN_MODE at
    0x0E and the entry at 0x0F; the reply is then decoded as for any
    command. *)
Theorem set_fan_mode_mapped (fan_mode : FanMode) (action_arg : Z) :
  FAN_MODE_TO_ACTION_ARG !! fan_mode = Some action_arg ->
  In (fan_mode, action_arg)
     [(OFF, 1); (AUTO, 2); (NIGHT, 6); (TURBO, 7); (ANTI_ALLERGY, 11)] /\
  exists packet,
    _send_packet SET_STATE SET_FAN_MODE action_arg = Ok packet /\
    byte_at packet 0x08 = SET_STATE /\
    byte_at packet 0x0E = SET_FAN_MODE /\
    byte_at packet 0x0F = action_arg /\
    set_fan_mode fan_mode =
      (data ← _send SET_STATE SET_FAN_MODE action_arg; Done (_decode_state data)) /\
    forall (World : Type)
           (dev_send_packet : Z -> list Z -> World -> result (list Z) * World)
           (dev_check_error : list Z -> World -> result unit * World)
           (dev_decrypt : list Z -> World -> result (list Z) * World)
           (w : World),
      sends (trace (run dev_send_packet dev_check_error dev_decrypt
                        (set_fan_mode fan_mode) w)) = [EvSend 0x6A packet].
Proof.
  rewrite FAN_MODE_TO_ACTION_ARG_lookup. intros Harg.
  assert (Htree : set_fan_mode fan_mode =
            (data ← _send SET_STATE SET_FAN_MODE action_arg; Done (_decode_state data))).
  { rewrite set_fan_mode_command.
    destruct fan_mode; cbv beta iota in Harg |- *; try discriminate Harg;
      injection Harg as <-; reflexivity. }
  split.
  { clear Htree.
    destruct fan_mode; cbv beta iota in Harg; try discriminate Harg;
      injection Harg as <-; cbn [In]; tauto. }
  exists (command_packet SET_STATE SET_FAN_MODE action_arg).
  split; [apply command_packet_ok |].
  split; [now rewrite command_packet_closed |].
  split; [now rewrite command_packet_closed |].
  split.
  { rewrite command_packet_closed. cbn [byte_at nth].
    destruct fan_mode; cbv beta iota in Harg; try discriminate Harg;
      injection Harg as <-; reflexivity. }
  split; [exact Htree |].
  intros. rewrite Htree. apply run_send_decode_sends.
Qed.

Lemma set_fan_mode_mapped_witness :
  exists packet,
    _send_packet SET_STATE SET_FAN_MODE 7 = Ok packet /\
    byte_at packet 0x08 = 1 /\ byte_at packet 0x0E = 2 /\ byte_at packet 0x0F = 7 /\
    sends (trace (run (fixed_send_packet (response_with 0 (payload_with 0x8D 121 0x40)))
                      le16_check_error plain_decrypt (set_fan_mode TURBO) 0%nat)) =
      [EvSend 0x6A packet].
Proof.
  destruct (set_fan_mode_mapped TURBO 7) as (_ & packet & Hp & H8 & HE & HF & _ & Hrun).
  - reflexivity.
  - exists packet. repeat split; try assumption. apply Hrun.
Defined.

(** X5. Distinct modes are distinct on the wire: on every device, the
    packets sent by [set_fan_mode] for two different modes differ. *)
Theorem set_fan_mode_packets_distinct (fan_mode fan_mode' : FanMode) :
  fan_mode <> fan_mode' ->
  forall (World : Type)
         (dev_send_packet : Z -> list Z -> World -> result (list Z) * World)
         (dev_check_error : list Z -> World -> result unit * World)
         (dev_decrypt : list Z -> World -> result (list Z) * World)
         (w w' : World),
    sends (trace (run dev_send_packet dev_check_error dev_decrypt
                      (set_fan_mode fan_mode) w)) <>
    sends (trace (run dev_send_packet dev_check_error dev_decrypt
                      (set_fan_mode fan_mode') w')).
Proof.
  intros Hne World dev_send_packet dev_check_error dev_decrypt w w'.
  rewrite !set_fan_mode_command, !run_send_decode_sends, !command_packet_closed.
  destruct fan_mode, fan_mode'; try congruence; vm_compute; discriminate.
Qed.

Lemma set_fan_mode_packets_distinct_witness :
  sends (trace (run (fixed_send_packet (response_with 0 (payload_with 0x8D 121 0x40)))
                    le16_check_error plain_decrypt (set_fan_mode NIGHT) 0%nat)) <>
  sends (trace (run (fixed_send_packet (response_with 0 (payload_with 0x8D 121 0x40)))
                    le16_check_error plain_decrypt (set_fan_mode TURBO) 0%nat)).
Proof.
  apply (set_fan_mode_packets_distinct NIGHT TURBO); discriminate.
Defined.

Lemma is_operation_command_range (c : Cmd PurifierState) :
  is_operation c ->
  exists operation action action_arg,
    (operation = SET_STATE \/ operation = GET_STATE) /\
    c = (data ← _send operation action action_arg; Done (_decode_state data)).
Proof.
  intros [| m | speed].
  - exists GET_STATE, 0, 0. split; [right |]; reflexivity.
  - rewrite set_fan_mode_command. do 3 eexists. split; [| reflexivity].
    destruct m; auto.
  - exists SET_STATE, SET_FAN_SPEED, speed. split; [left |]; reflexivity.
Qed.

(** X6. Every operation sends exactly one packet, whatever the device
    answers and whether or not the operation succeeds: a packet of type
    0x6A, of 26 bytes, each in 0-255, whose operation byte is SET_STATE
    or GET_STATE.  Nothing is retried and nothing else is sent. *)
Theorem operation_sends_one_packet (c : Cmd PurifierState) :
  is_operation c ->
  exists packet,
    length packet = 26%nat /\
    is_bytes packet = true /\
    (byte_at packet 0x08 = SET_STATE \/ byte_at packet 0x08 = GET_STATE) /\
    forall (World : Type)
           (dev_send_packet : Z -> list Z -> World -> result (list Z) * World)
           (dev_check_error : list Z -> World -> result unit * World)
           (dev_decrypt : list Z -> World -> result (list Z) * World)
           (w : World),
      sends (trace (run dev_send_packet dev_check_error dev_decrypt c w)) =
        [EvSend 0x6A packet].
Proof.
  intros Hop.
  destruct (is_operation_command_range c Hop)
    as (operation & action & action_arg & Hrange & ->).
  exists (command_packet operation action action_arg).
  split; [now rewrite command_packet_closed |].
  split.
  { rewrite command_packet_closed.
    pose proof (Z.mod_pos_bound operation 256 ltac:(lia)).
    pose proof (Z.mod_pos_bound action 256 ltac:(lia)).
    pose proof (Z.mod_pos_bound action_arg 256 ltac:(lia)).
    set (s := 0xC0B9 + operation mod 256 + action mod 256 + action_arg mod 256) in *.
    pose proof (Z.mod_pos_bound s 256 ltac:(lia)).
    assert (0 <= s / 256 < 256).
    { split; [apply Z.div_pos; lia | apply Z.div_lt_upper_bound; lia]. }
    unfold is_bytes, is_byte. cbn [forallb].
    repeat match goal with
    | |- context [(0 <=? ?v)] => destruct (Z.leb_spec 0 v); [| lia]
    | |- context [(?v <? 256)] => destruct (Z.ltb_spec v 256); [| lia]
    end. reflexivity. }
  split.
  { rewrite command_packet_closed. cbn [byte_at nth].
    destruct Hrange as [-> | ->]; [left | right]; reflexivity. }
  intros. apply run_send_decode_sends.
Qed.

Lemma operation_sends_one_packet_witness :
  exists packet,
    length packet = 26%nat /\
    sends (trace (run (fixed_send_packet (response_with 7 [])) le16_check_error
                      plain_decrypt (set_fan_speed 121) 0%nat)) = [EvSend 0x6A packet].
Proof.
  destruct (operation_sends_one_packet (set_fan_speed 121) (op_set_fan_speed 121))
    as (packet & Hlen & _ & _ & Hrun).
  exists packet. split; [exact Hlen | apply Hrun].
Defined.

(** ** Further properties of decoding *)

Lemma byte_at_app_l (data extra : list Z) (i : nat) :
  (i < length data)%nat -> byte_at (data ++ extra) i = byte_at data i.
Proof. intros Hi. unfold byte_at. now apply app_nth1. Qed.

(** X7. Bytes after offset 57 are never read: a payload of at least 58
    bytes decodes to the same raw and final state whatever follows it. *)
Theorem decode_state_ignores_trailing_bytes (data extra : list Z) :
  (58 <= length data)%nat ->
  _decode_state_raw (data ++ extra) = _decode_state_raw data /\
  _decode_state (data ++ extra) = _decode_state data.
Proof.
  intros Hlen.
  assert (Hraw : _decode_state_raw (data ++ extra) = _decode_state_raw data).
  { rewrite !_decode_state_raw_ok by (rewrite ?length_app; lia).
    now rewrite !byte_at_app_l by lia. }
  split; [exact Hraw |]. unfold _decode_state. now rewrite Hraw.
Qed.

Lemma decode_state_ignores_trailing_bytes_witness :
  _decode_state_raw (payload_with 0xA5 50 0x40 ++ [1; 2; 3]) =
    _decode_state_raw (payload_with 0xA5 50 0x40) /\
  _decode_state (payload_with 0xA5 50 0x40 ++ [1; 2; 3]) =
    _decode_state (payload_with 0xA5 50 0x40).
Proof.
  apply (decode_state_ignores_trailing_bytes (payload_with 0xA5 50 0x40) [1; 2; 3]).
  vm_compute. lia.
Defined.

(** X8. Decoding depends on the sixteen offsets of [read_offsets] and on
    nothing else.  Two well-formed payloads of at least 58 bytes have the
    same raw state exactly when they agree at these offsets (so the raw
    state loses none of the bytes read), and then they have the same
    final state. *)
Theorem decode_state_raw_eq_iff (data data' : list Z) :
  (58 <= length data)%nat -> (58 <= length data')%nat ->
  is_bytes data = true -> is_bytes data' = true ->
  (_decode_state_raw data = _decode_state_raw data' <->
   Forall (fun i => byte_at data i = byte_at data' i) read_offsets) /\
  (Forall (fun i => byte_at data i = byte_at data' i) read_offsets ->
   _decode_state data = _decode_state data').
Proof.
  intros Hlen Hlen' Hb Hb'.
  assert (Hback : Forall (fun i => byte_at data i = byte_at data' i) read_offsets ->
                  _decode_state_raw data = _decode_state_raw data').
  { unfold read_offsets. rewrite !Forall_cons.
    intros (H27 & H28 & H29 & H31 & H32 & H35 & H36 & H37 & H38 & H39 & H40
            & H41 & H42 & H55 & H56 & H57 & _).
    rewrite !_decode_state_raw_ok by assumption.
    now rewrite H27, H28, H29, H31, H32, H35, H36, H37, H38, H39, H40,
      H41, H42, H55, H56, H57. }
  split; [split; [| exact Hback] |].
  - rewrite !_decode_state_raw_ok by assumption.
    intros H. injection H as Ht Hh Hc Hv H10 H25 H1 Hs Hp Hf.
    pose proof (fun i => is_bytes_byte_at data i Hb) as B.
    pose proof (fun i => is_bytes_byte_at data' i Hb') as B'.
    unfold read_offsets.
    repeat constructor;
      match goal with
      | |- byte_at data ?i = byte_at data' ?i =>
          pose proof (B 27%nat); pose proof (B 28%nat); pose proof (B 31%nat);
          pose proof (B 32%nat); pose proof (B 35%nat); pose proof (B 36%nat);
          pose proof (B 37%nat); pose proof (B 38%nat); pose proof (B 39%nat);
          pose proof (B 40%nat); pose proof (B 41%nat); pose proof (B 42%nat);
          pose proof (B' 27%nat); pose proof (B' 28%nat); pose proof (B' 31%nat);
          pose proof (B' 32%nat); pose proof (B' 35%nat); pose proof (B' 36%nat);
          pose proof (B' 37%nat); pose proof (B' 38%nat); pose proof (B' 39%nat);
          pose proof (B' 40%nat); pose proof (B' 41%nat); pose proof (B' 42%nat);
          lia
      end.
  - intros H. unfold _decode_state. now rewrite (Hback H).
Qed.

Lemma decode_state_raw_eq_iff_witness :
  _decode_state (<[0%nat := 9]> (payload_with 0xA5 50 0x40) ++ [7]) =
    _decode_state (payload_with 0xA5 50 0x40).
Proof.
  apply (decode_state_raw_eq_iff
           (<[0%nat := 9]> (payload_with 0xA5 50 0x40) ++ [7])
           (payload_with 0xA5 50 0x40)).
  - vm_compute. lia.
  - vm_compute. lia.
  - reflexivity.
  - reflexivity.
  - unfold read_offsets. repeat constructor.
Defined.



(** X10. The fan mode read backwards.  ANTI_ALLERGY is reported exactly
    when bit 0x40 of the flags is clear (no fan_state byte stands for it);
    each of OFF, AUTO, NIGHT, TURBO, MANUAL exactly when the bit is set
    and fan_state is its one byte; offline exactly for 0x01; and UNKNOWN
    exactly when the bit is set and fan_state is none of the six. *)
Theorem decode_fan_mode_inverse (fan_state fan_flags : Z) :
  (_decode_fan_mode fan_state fan_flags = Some ANTI_ALLERGY <->
     Z.land fan_flags 0x40 = 0) /\
  (_decode_fan_mode fan_state fan_flags = Some OFF <->
     Z.land fan_flags 0x40 <> 0 /\ fan_state = 0x81) /\
  (_decode_fan_mode fan_state fan_flags = Some AUTO <->
     Z.land fan_flags 0x40 <> 0 /\ fan_state = 0xA5) /\
  (_decode_fan_mode fan_state fan_flags = Some NIGHT <->
     Z.land fan_flags 0x40 <> 0 /\ fan_state = 0x95) /\
  (_decode_fan_mode fan_state fan_flags = Some TURBO <->
     Z.land fan_flags 0x40 <> 0 /\ fan_state = 0x8D) /\
  (_decode_fan_mode fan_state fan_flags = Some MANUAL <->
     Z.land fan_flags 0x40 <> 0 /\ fan_state = 0x85) /\
  (_decode_fan_mode fan_state fan_flags = None <->
     Z.land fan_flags 0x40 <> 0 /\ fan_state = 0x01) /\
  (_decode_fan_mode fan_state fan_flags = Some UNKNOWN <->
     Z.land fan_flags 0x40 <> 0 /\
     ~ In fan_state [0x81; 0xA5; 0x95; 0x8D; 0x85; 0x01]).
Proof.
  unfold _decode_fan_mode.
  destruct (Z.eqb_spec (Z.land fan_flags 0x40) 0) as [Hz | Hnz].
  - intuition (try discriminate; try lia).
  - cbn [In]. rewrite FAN_STATE_TO_MODE_lookup.
    destruct (decide (fan_state = 0x81)) as [-> | H1];
      [cbn -[Z.land]; intuition (try discriminate; try lia) |].
    destruct (decide (fan_state = 0xA5)) as [-> | H2];
      [cbn -[Z.land]; intuition (try discriminate; try lia) |].
    destruct (decide (fan_state = 0x95)) as [-> | H3];
      [cbn -[Z.land]; intuition (try discriminate; try lia) |].
    destruct (decide (fan_state = 0x8D)) as [-> | H4];
      [cbn -[Z.land]; intuition (try discriminate; try lia) |].
    destruct (decide (fan_state = 0x85)) as [-> | H5];
      [cbn -[Z.land]; intuition (try discriminate; try lia) |].
    destruct (decide (fan_state = 0x01)) as [-> | H6];
      [cbn -[Z.land]; intuition (try discriminate; try lia) |].
    rewrite <- FAN_STATE_TO_MODE_lookup. unfold FAN_STATE_TO_MODE.
    rewrite !lookup_insert_ne by congruence. rewrite lookup_empty. cbn [default].
    intuition (try discriminate; try lia).
Qed.

(** *** The temperature *)

(** [temperature_ok] holds on the 65536 little-endian pairs of bytes. *)
Lemma all_readings_ok :
  forallb (fun hi => forallb (fun lo => temperature_ok (lo + 256 * hi)) all_bytes)
          all_bytes = true.
Proof. vm_compute. reflexivity. Qed.

Lemma In_all_bytes (b : Z) : 0 <= b < 256 -> In b all_bytes.
Proof.
  intros Hb. unfold all_bytes.
  rewrite <- (Z2Nat.id b) by lia.
  apply in_map. apply in_seq. lia.
Qed.

Lemma forallb_true_In {A : Type} (f : A -> bool) (l : list A) (x : A) :
  forallb f l = true -> In x l -> f x = true.
Proof. intros H. now apply forallb_forall. Qed.

Lemma temperature_ok_reading (lo hi : Z) :
  0 <= lo < 256 -> 0 <= hi < 256 -> temperature_ok (lo + 256 * hi) = true.
Proof.
  intros Hlo Hhi.
  apply (forallb_true_In (fun lo => temperature_ok (lo + 256 * hi)) all_bytes lo);
    [| now apply In_all_bytes].
  apply (forallb_true_In
           (fun hi => forallb (fun lo => temperature_ok (lo + 256 * hi)) all_bytes)
           all_bytes hi); [| now apply In_all_bytes].
  exact all_readings_ok.
Qed.

Lemma tenths_truediv (lo hi : Z) :
  0 <= lo < 256 -> 0 <= hi < 256 ->
  Uint63.to_Z (tenths (truediv (lo + 256 * hi) 10)) = lo + 256 * hi.
Proof.
  intros Hlo Hhi.
  pose proof (temperature_ok_reading lo hi Hlo Hhi) as H.
  unfold temperature_ok in H. cbv zeta in H.
  apply andb_prop in H. destruct H as [_ H].
  apply Uint63.eqb_spec in H. rewrite H.
  rewrite Uint63.of_Z_spec. apply Z.mod_small.
  change Uint63.wB with 9223372036854775808. lia.
Qed.

(** X11. On a well-formed payload of at least 58 bytes a temperature,
    when present, is a number between 0 and 6553.5 (so never a NaN, an
    infinity or negative). *)
Theorem decode_state_temperature_range (data : list Z) (st : PurifierState) (t : float) :
  (58 <= length data)%nat ->
  is_bytes data = true ->
  _decode_state data = Ok st ->
  temperature st = Some t ->
  PrimFloat.leb 0 t = true /\ PrimFloat.leb t 6553.5 = true.
Proof.
  intros Hlen Hb Hst Ht.
  rewrite _decode_state_ok in Hst by exact Hlen. cbv zeta in Hst.
  injection Hst as <-. cbn [temperature] in Ht.
  destruct (_decode_fan_mode _ _); [| discriminate].
  injection Ht as <-.
  pose proof (temperature_ok_reading (byte_at data 27) (byte_at data 28)
                (is_bytes_byte_at data 27 Hb) (is_bytes_byte_at data 28 Hb)) as H.
  unfold temperature_ok in H. cbv zeta in H.
  apply andb_prop in H. destruct H as [H _].
  apply andb_prop in H. exact H.
Qed.

Lemma decode_state_temperature_range_witness :
  PrimFloat.leb 0 24.5 = true /\ PrimFloat.leb 24.5 6553.5 = true.
Proof.
  destruct (_decode_state (payload_with 0xA5 50 0x40)) as [st |] eqn:Hst;
    [| vm_compute in Hst; discriminate].
  apply (decode_state_temperature_range (payload_with 0xA5 50 0x40) st 24.5).
  - vm_compute. lia.
  - reflexivity.
  - exact Hst.
  - vm_compute in Hst. injection Hst as <-. reflexivity.
Defined.

(** X12. The temperature loses nothing of the reading: two well-formed
    payloads of at least 58 bytes that decode to the same temperature
    have the same bytes at offsets 27 and 28. *)
Theorem decode_state_temperature_lossless
    (data data' : list Z) (st st' : PurifierState) (t : float) :
  (58 <= length data)%nat -> (58 <= length data')%nat ->
  is_bytes data = true -> is_bytes data' = true ->
  _decode_state data = Ok st -> _decode_state data' = Ok st' ->
  temperature st = Some t -> temperature st' = Some t ->
  byte_at data 27 = byte_at data' 27 /\ byte_at data 28 = byte_at data' 28.
Proof.
  intros Hlen Hlen' Hb Hb' Hst Hst' Ht Ht'.
  rewrite _decode_state_ok in Hst, Hst' by assumption. cbv zeta in Hst, Hst'.
  injection Hst as <-. injection Hst' as <-. cbn [temperature] in Ht, Ht'.
  destruct (_decode_fan_mode (byte_at data 55) _); [| discriminate].
  destruct (_decode_fan_mode (byte_at data' 55) _); [| discriminate].
  injection Ht as Ht. injection Ht' as Ht'.
  pose proof (is_bytes_byte_at data 27 Hb) as B27.
  pose proof (is_bytes_byte_at data 28 Hb) as B28.
  pose proof (is_bytes_byte_at data' 27 Hb') as B27'.
  pose proof (is_bytes_byte_at data' 28 Hb') as B28'.
  pose proof (tenths_truediv _ _ B27 B28) as E.
  pose proof (tenths_truediv _ _ B27' B28') as E'.
  rewrite Ht in E. rewrite Ht' in E'. rewrite E in E'. lia.
Qed.

Lemma decode_state_temperature_lossless_witness :
  byte_at (payload_with 0xA5 50 0x40) 27 = byte_at (payload_with 0x85 7 0x00) 27 /\
  byte_at (payload_with 0xA5 50 0x40) 28 = byte_at (payload_with 0x85 7 0x00) 28.
Proof.
  destruct (_decode_state (payload_with 0xA5 50 0x40)) as [st |] eqn:Hst;
    [| vm_compute in Hst; discriminate].
  destruct (_decode_state (payload_with 0x85 7 0x00)) as [st' |] eqn:Hst';
    [| vm_compute in Hst'; discriminate].
  apply (decode_state_temperature_lossless
           (payload_with 0xA5 50 0x40) (payload_with 0x85 7 0x00) st st' 24.5).
  - vm_compute. lia.
  - vm_compute. lia.
  - reflexivity.
  - reflexivity.
  - exact Hst.
  - exact Hst'.
  - vm_compute in Hst. injection Hst as <-. reflexivity.
  - vm_compute in Hst'. injection Hst' as <-. reflexivity.
Defined.

(** ** Further properties of the run *)



(** X14. [_send] does not look at the length of the response.  For a
    response of at most 0x38 bytes the error check is still made, on
    whatever the slice 0x22:0x24 holds (at most two bytes, none when the
    response has at most 0x22 bytes), and any decryption is of the empty
    payload. *)
Theorem short_response_not_rejected
    (c : Cmd PurifierState) (World : Type)
    (dev_send_packet : Z -> list Z -> World -> result (list Z) * World)
    (dev_check_error : list Z -> World -> result unit * World)
    (dev_decrypt : list Z -> World -> result (list Z) * World)
    (w w1 : World) (resp : list Z) :
  is_operation c ->
  (forall p, dev_send_packet 0x6A p w = (Ok resp, w1)) ->
  (length resp <= 0x38)%nat ->
  In (EvCheck (slice resp 0x22 0x24))
     (trace (run dev_send_packet dev_check_error dev_decrypt c w)) /\
  (length (slice resp 0x22 0x24) <= 2)%nat /\
  ((length resp <= 0x22)%nat -> slice resp 0x22 0x24 = []) /\
  (forall payload,
     In (EvDecrypt payload)
        (trace (run dev_send_packet dev_check_error dev_decrypt c w)) ->
     payload = []).
Proof.
  intros Hop Hsend Hlen.
  destruct (is_operation_command c Hop) as (operation & action & action_arg & ->).
  rewrite run_send_decode. cbv zeta. rewrite Hsend.
  assert (Hempty : slice_from resp 0x38 = []).
  { unfold slice_from. now apply drop_ge. }
  rewrite Hempty.
  split; [| split; [| split]].
  - destruct (dev_check_error _ w1) as [[u | e] w2]; [| cbn; tauto].
    destruct (dev_decrypt [] w2) as [[data | e] w3]; cbn; tauto.
  - unfold slice. rewrite length_take. lia.
  - intros Hshort. unfold slice. rewrite drop_ge by exact Hshort. reflexivity.
  - intros payload.
    destruct (dev_check_error _ w1) as [[u | e] w2].
    + destruct (dev_decrypt [] w2) as [[data | e] w3]; cbn;
        intros [H | [H | [H | []]]]; congruence.
    + cbn. intros [H | [H | []]]; congruence.
Qed.

Lemma short_response_not_rejected_witness :
  In (EvCheck [7])
     (trace (run (fixed_send_packet (replicate 0x22 0 ++ [7])) le16_check_error
                 plain_decrypt get_state 0%nat)) /\
  (forall payload,
     In (EvDecrypt payload)
        (trace (run (fixed_send_packet (replicate 0x22 0 ++ [7])) le16_check_error
                    plain_decrypt get_state 0%nat)) ->
     payload = []).
Proof.
  destruct (short_response_not_rejected get_state nat
              (fixed_send_packet (replicate 0x22 0 ++ [7])) le16_check_error
              plain_decrypt 0%nat 1%nat (replicate 0x22 0 ++ [7]))
    as (Hcheck & _ & _ & Hdec).
  - exact op_get_state.
  - reflexivity.
  - vm_compute. lia.
  - split; [exact Hcheck | exact Hdec].
Defined.
